(** * api_li3ds.apis.platform: the platform namespace of the LI3DS REST API

    A shallow embedding of [src/api_li3ds/apis/platform.py]: the storage
    the handlers query, the two SQL statements of the configuration preview
    with their relational semantics, the calls made on the graphviz
    [Digraph], and the single-platform GET and DELETE handlers. *)

From Stdlib Require Import Strings.Byte.
From stdpp Require Import base numbers list gmap strings pretty.

Local Open Scope Z_scope.

(** ** The relational store

    Only the columns the statements of [platform.py] read are kept.  A
    table is the bag of its rows: no key constraint is built in, the
    theorems that need one state it. *)

Record platform_row := {
  p_id : Z;
  p_name : string;
  p_description : string;
  p_start_time : option string;
  p_end_time : option string }.

Record platform_config_row := {
  pf_id : Z;
  pf_name : string;
  pf_owner : string;
  pf_platform : Z;
  pf_transfo_trees : list Z }.

Record transfo_tree_row := {
  tt_id : Z;
  tt_transfos : list Z;
  tt_sensor_connections : bool }.

Record transfo_row := {
  t_id : Z;
  t_source : Z;
  t_target : Z;
  t_transfo_type : Z }.

Record referential_row := {
  r_id : Z;
  r_name : string;
  r_root : bool }.

Record Storage := {
  platform : list platform_row;
  platform_config : list platform_config_row;
  transfo_tree : list transfo_tree_row;
  transfo : list transfo_row;
  referential : list referential_row }.

(** Rows returned by the two statements of the preview. *)

Record edge_row := {
  e_id : Z;
  e_source : Z;
  e_target : Z;
  e_transfo_type : Z;
  e_sc : bool }.

Record node_row := {
  n_id : Z;
  n_name : string;
  n_root : bool }.

Global Instance platform_row_eq_dec : EqDecision platform_row.
Proof. solve_decision. Defined.
Global Instance edge_row_eq_dec : EqDecision edge_row.
Proof. solve_decision. Defined.
Global Instance node_row_eq_dec : EqDecision node_row.
Proof. solve_decision. Defined.

(** A statement without ORDER BY returns its rows in an order the store
    chooses, and a Python [set] is listed in an order the interpreter
    chooses.  Both are a rearrangement the handler has no control over. *)

Record RowOrder := {
  reorder : ∀ A : Type, list A → list A;
  reorder_perm : ∀ (A : Type) (l : list A), reorder A l ≡ₚ l }.

Arguments reorder _ {A} _.

Definition stored_order : RowOrder :=
  {| reorder := λ A l, l; reorder_perm := λ A l, reflexivity l |}.

Definition reversed_order : RowOrder :=
  {| reorder := λ A l, reverse l; reorder_perm := λ A l, reverse_Permutation l |}.

(** ** Handlers as storage-passing computations

    A handler either returns, or leaves through [nspfm.abort] with a status
    and a message, or lets an exception of the rendering backend through. *)

Inductive outcome (A : Type) :=
  | Ok (a : A)
  | Abort (status : Z) (message : string)
  | BackendError.

Arguments Ok {A} a.
Arguments Abort {A} status message.
Arguments BackendError {A}.

Definition DB (A : Type) : Type := Storage → outcome A * Storage.

Definition db_ret {A} (a : A) : DB A := λ st, (Ok a, st).

Definition db_bind {A B} (m : DB A) (k : A → DB B) : DB B := λ st,
  match m st with
  | (Ok a, st') => k a st'
  | (Abort status message, st') => (Abort status message, st')
  | (BackendError, st') => (BackendError, st')
  end.

Definition abort {A} (status : Z) (message : string) : DB A :=
  λ st, (Abort status message, st).

Global Instance DB_ret : MRet DB := λ A, db_ret.
Global Instance DB_bind : MBind DB := λ A B k m, db_bind m k.

(** Modelled from the spec: [Database.query] of [api_li3ds/database.py],
    which is not part of the sources, runs a read-only statement and
    returns its rows.  The statement is given by its meaning on the store;
    the store is left as it was and the rows come back in the order the
    store chose. *)
Definition Database_query {A} (ord : RowOrder) (select : Storage → list A) : DB (list A) :=
  λ st, (Ok (reorder ord (select st)), st).

(** Modelled from the spec: [Database.query_asjson], absent from the
    sources as well, returns the rows of the statement as a list of JSON
    objects, one per row. *)
Definition Database_query_asjson {A} (ord : RowOrder) (select : Storage → list A) : DB (list A) :=
  Database_query ord select.

(** Modelled from the spec: [Database.rowcount] runs a statement that
    changes the store and returns the number of rows it touched. *)
Definition Database_rowcount (statement : Storage → nat * Storage) : DB nat :=
  λ st, let '(n, st') := statement st in (Ok n, st').

(** ** PlatformConfigPreview.get, lines 146-167: the assembler *)

(** The common table expression [tmp]: the configurations whose id is the
    parameter, joined with the trees whose id is among their
    [transfo_trees], one row per element of the tree's [transfos], each
    carrying the tree's [sensor_connections]. *)
Definition preview_tmp (id : Z) (st : Storage) : list (Z * bool) :=
  pf ← platform_config st;
  tt ← transfo_tree st;
  if decide (tt_id tt ∈ pf_transfo_trees pf ∧ pf_id pf = id)
  then (λ tid, (tid, tt_sensor_connections tt)) <$> tt_transfos tt
  else [].

(** [select distinct t.id, t.source, t.target, transfo_type, p.sc
     from tmp p join li3ds.transfo t on t.id = p.tid]. *)
Definition select_preview_edges (id : Z) (st : Storage) : list edge_row :=
  remove_dups (
    p ← preview_tmp id st;
    t ← transfo st;
    if decide (t_id t = p.1)
    then [ {| e_id := t_id t; e_source := t_source t; e_target := t_target t;
              e_transfo_type := t_transfo_type t; e_sc := p.2 |} ]
    else []).

(** [select distinct id, name, root from li3ds.referential
     where ARRAY[id] <@ %s], the parameter being a list of ids. *)
Definition select_preview_nodes (ids : list Z) (st : Storage) : list node_row :=
  remove_dups (
    r ← referential st;
    if decide (r_id r ∈ ids)
    then [ {| n_id := r_id r; n_name := r_name r; n_root := r_root r |} ]
    else []).

(** Lines 159-162: the set of the ids met as a source or a target. *)
Definition collect_urefs (edges : list edge_row) : gset Z :=
  foldl (λ urefs edge, urefs ∪ {[ e_source edge ]} ∪ {[ e_target edge ]}) ∅ edges.

Definition assemble (ord : RowOrder) (id : Z) : DB (list node_row * list edge_row) :=
  edges ← Database_query ord (select_preview_edges id);
  let urefs := collect_urefs edges in
  nodes ← Database_query ord (select_preview_nodes (reorder ord (elements urefs)));
  mret (nodes, edges).

(** ** PlatformConfigPreview.get, lines 169-192: the graph description

    The graphviz [Digraph] is kept as the record of the calls made on it:
    its comment, the statements appended by [node] and [edge] in call
    order, the graph attributes and the engine. *)

Inductive stmt :=
  | node_stmt (name label : string) (attrs : list (string * string))
  | edge_stmt (tail_name head_name : string) (label : option string)
              (attrs : list (string * string)).

Record Digraph := {
  comment : string;
  body : list stmt;
  graph_attr : list (string * string);
  engine : string }.

Definition new_Digraph (c : string) : Digraph :=
  {| comment := c; body := []; graph_attr := []; engine := "dot" |}.

Definition dot_node (dot : Digraph) (name label : string)
    (attrs : list (string * string)) : Digraph :=
  {| comment := comment dot; body := body dot ++ [node_stmt name label attrs];
     graph_attr := graph_attr dot; engine := engine dot |}.

Definition dot_edge (dot : Digraph) (tail_name head_name : string)
    (label : option string) (attrs : list (string * string)) : Digraph :=
  {| comment := comment dot;
     body := body dot ++ [edge_stmt tail_name head_name label attrs];
     graph_attr := graph_attr dot; engine := engine dot |}.

Definition set_graph_attr (dot : Digraph) (a : list (string * string)) : Digraph :=
  {| comment := comment dot; body := body dot; graph_attr := a; engine := engine dot |}.

Definition set_engine (dot : Digraph) (e : string) : Digraph :=
  {| comment := comment dot; body := body dot; graph_attr := graph_attr dot; engine := e |}.

(** Python's [str] on an integer. *)
Definition str (z : Z) : string := pretty z.

Definition newline : string := String (Ascii.ascii_of_nat 10) "".

(** ['{}\n({})'.format(node.name, node.id)] *)
Definition node_label (node : node_row) : string :=
  n_name node +:+ newline +:+ "(" +:+ str (n_id node) +:+ ")".

(** One turn of the loop of lines 171-175. *)
Definition draw_node (dot : Digraph) (node : node_row) : Digraph :=
  if n_root node
  then dot_node dot (str (n_id node)) (node_label node) [("color", "red")]
  else dot_node dot (str (n_id node)) (node_label node) [].

(** One turn of the loop of lines 177-189. *)
Definition draw_edge (dot : Digraph) (edge : edge_row) : Digraph :=
  if e_sc edge
  then dot_edge dot (str (e_source edge)) (str (e_target edge))
         (Some (str (e_id edge))) [("color", "blue")]
  else dot_edge dot (str (e_source edge)) (str (e_target edge))
         (Some (str (e_id edge))) [].

Definition describe_graph (nodes : list node_row) (edges : list edge_row) : Digraph :=
  let dot := new_Digraph "Transformations" in
  let dot := foldl draw_node dot nodes in
  let dot := foldl draw_edge dot edges in
  let dot := set_graph_attr dot [("overlap", "scalexy")] in
  set_engine dot "dot".

(** ** PlatformConfigPreview.get, lines 193-198: the response *)

Record Response := {
  resp_data : list byte;
  resp_status : Z;
  resp_content_type : string;
  resp_mimetype : string }.

(** flask's [make_response] on a body: status 200, the default type. *)
Definition make_response (data : list byte) : Response :=
  {| resp_data := data; resp_status := 200;
     resp_content_type := "text/html; charset=utf-8"; resp_mimetype := "text/html" |}.

Definition set_content_type (r : Response) (v : string) : Response :=
  {| resp_data := resp_data r; resp_status := resp_status r;
     resp_content_type := v; resp_mimetype := resp_mimetype r |}.

Definition set_mimetype (r : Response) (v : string) : Response :=
  {| resp_data := resp_data r; resp_status := resp_status r;
     resp_content_type := resp_content_type r; resp_mimetype := v |}.

(** The rendering backend behind [Digraph.pipe]: the bytes of the image in
    the asked format, or nothing when the backend raises. *)
Definition Backend : Type := Digraph → string → option (list byte).

Definition dot_pipe (pipe : Backend) (dot : Digraph) (format : string) : DB (list byte) :=
  λ st, match pipe dot format with
        | Some data => (Ok data, st)
        | None => (BackendError, st)
        end.

Definition PlatformConfigPreview_get (ord : RowOrder) (pipe : Backend) (id : Z) : DB Response :=
  '(nodes, edges) ← assemble ord id;
  let dot := describe_graph nodes edges in
  data ← dot_pipe pipe dot "png";
  let response := make_response data in
  let response := set_content_type response "image/png" in
  let response := set_mimetype response "image/png" in
  mret response.

(** ** OnePlatform, lines 79-99 *)

(** [select * from li3ds.platform where id=%s] *)
Definition select_platform (id : Z) (st : Storage) : list platform_row :=
  filter (λ p, p_id p = id) (platform st).

(** [delete from li3ds.platform where id=%s] *)
Definition delete_platform (id : Z) (st : Storage) : nat * Storage :=
  (length (filter (λ p, p_id p = id) (platform st)),
   {| platform := filter (λ p, p_id p ≠ id) (platform st);
      platform_config := platform_config st;
      transfo_tree := transfo_tree st;
      transfo := transfo st;
      referential := referential st |}).

Definition OnePlatform_get (ord : RowOrder) (id : Z) : DB (list platform_row) :=
  res ← Database_query_asjson ord (select_platform id);
  match res with
  | [] => abort 410 "Platform not found"
  | _ :: _ => mret res
  end.

Definition OnePlatform_delete (id : Z) : DB (string * Z) :=
  res ← Database_rowcount (delete_platform id);
  match res with
  | O => abort 410 "Platform not found"
  | S _ => mret ("", 204)
  end.

(** ** Platforms, lines 58-76 *)

(** [select * from li3ds.platform] *)
Definition select_platforms (st : Storage) : list platform_row := platform st.

Definition Platforms_get (ord : RowOrder) : DB (list platform_row) :=
  Database_query_asjson ord select_platforms.

(** The body of a POST on the collection, with the four keys the statement
    of line 72 names. *)
Record platform_payload := {
  pl_name : string;
  pl_description : string;
  pl_start_time : option string;
  pl_end_time : option string }.

(** [insert into li3ds.platform (name, description, start_time, end_time)
     values (...) returning *].  The statement gives no id: the store
     fills the column with its default, [new_id] here. *)
Definition insert_platform (new_id : Z) (payload : platform_payload) (st : Storage)
    : list platform_row * Storage :=
  let row := {| p_id := new_id; p_name := pl_name payload;
                p_description := pl_description payload;
                p_start_time := pl_start_time payload;
                p_end_time := pl_end_time payload |} in
  ([row],
   {| platform := platform st ++ [row];
      platform_config := platform_config st;
      transfo_tree := transfo_tree st;
      transfo := transfo st;
      referential := referential st |}).

(** Modelled from the spec: [Database.query_asdict], absent from the
    sources, runs a statement and returns its rows, one dictionary each. *)
Definition Database_query_asdict {A} (ord : RowOrder)
    (statement : Storage → list A * Storage) : DB (list A) :=
  λ st, let '(rows, st') := statement st in (Ok (reorder ord rows), st').

Definition Platforms_post (ord : RowOrder) (new_id : Z) (payload : platform_payload)
    : DB (list platform_row * Z) :=
  res ← Database_query_asdict ord (insert_platform new_id payload);
  mret (res, 201).

(** ** PlatformConfigs.get, lines 102-110 *)

(** [select * from li3ds.platform_config where platform = %s] *)
Definition select_platform_configs (id : Z) (st : Storage) : list platform_config_row :=
  filter (λ pf, pf_platform pf = id) (platform_config st).

Definition PlatformConfigs_get (ord : RowOrder) (id : Z) : DB (list platform_config_row) :=
  Database_query_asjson ord (select_platform_configs id).

(** ** OnePlatformConfig.get, lines 124-132 *)

(** [select * from li3ds.platform_config where id = %s] *)
Definition select_platform_config (id : Z) (st : Storage) : list platform_config_row :=
  filter (λ pf, pf_id pf = id) (platform_config st).

Definition OnePlatformConfig_get (ord : RowOrder) (id : Z) : DB (list platform_config_row) :=
  Database_query_asjson ord (select_platform_config id).

(** ** Sample stores *)

Definition the_config (id : Z) (trees : list Z) : platform_config_row :=
  {| pf_id := id; pf_name := "config"; pf_owner := "li3ds";
     pf_platform := 1; pf_transfo_trees := trees |}.

Definition the_transfo (id source target : Z) : transfo_row :=
  {| t_id := id; t_source := source; t_target := target; t_transfo_type := 1 |}.

(** Scenario A of the specification: configuration 7 with the trees 1 and
    2, tree 1 holding the transformations 10 and 11, tree 2 holding 11 and
    12.  The store keeps [sensor_connections] on the tree, so the scenario
    is given for any two flags. *)
Definition scenario_A (sc1 sc2 : bool) : Storage :=
  {| platform := [];
     platform_config := [the_config 7 [1; 2]];
     transfo_tree :=
       [ {| tt_id := 1; tt_transfos := [10; 11]; tt_sensor_connections := sc1 |};
         {| tt_id := 2; tt_transfos := [11; 12]; tt_sensor_connections := sc2 |} ];
     transfo := [the_transfo 10 100 101; the_transfo 11 101 102; the_transfo 12 102 103];
     referential :=
       [ {| r_id := 100; r_name := "base"; r_root := true |};
         {| r_id := 101; r_name := "ins"; r_root := false |};
         {| r_id := 102; r_name := "lidar"; r_root := false |};
         {| r_id := 103; r_name := "camera"; r_root := false |} ] |}.

(** One transformation held by two trees of one configuration, the trees
    disagreeing on [sensor_connections]. *)
Definition shared_transfo_store : Storage :=
  {| platform := [];
     platform_config := [the_config 1 [1; 2]];
     transfo_tree :=
       [ {| tt_id := 1; tt_transfos := [10]; tt_sensor_connections := false |};
         {| tt_id := 2; tt_transfos := [10]; tt_sensor_connections := true |} ];
     transfo := [the_transfo 10 100 101];
     referential :=
       [ {| r_id := 100; r_name := "base"; r_root := true |};
         {| r_id := 101; r_name := "lidar"; r_root := false |} ] |}.

(** A transformation whose target has no row in [li3ds.referential]. *)
Definition dangling_store : Storage :=
  {| platform := [];
     platform_config := [the_config 1 [1]];
     transfo_tree :=
       [ {| tt_id := 1; tt_transfos := [10]; tt_sensor_connections := false |} ];
     transfo := [the_transfo 10 100 101];
     referential := [ {| r_id := 100; r_name := "base"; r_root := true |} ] |}.

(** Two platforms. *)
Definition two_platforms : Storage :=
  {| platform :=
       [ {| p_id := 1; p_name := "van"; p_description := "mobile mapping";
            p_start_time := None; p_end_time := None |};
         {| p_id := 2; p_name := "drone"; p_description := "aerial";
            p_start_time := None; p_end_time := None |} ];
     platform_config := []; transfo_tree := []; transfo := []; referential := [] |}.

(** A backend that answers every description with the same two bytes. *)
Definition stub_backend : Backend := λ _ _, Some [x89; x50].

(** Scenario A with a second configuration, of another platform, and the
    trees of configuration 7 listed in another order, one of them twice. *)
Definition scenario_A_crowded (sc1 sc2 : bool) : Storage :=
  {| platform := platform (scenario_A sc1 sc2);
     platform_config :=
       [ {| pf_id := 8; pf_name := "other"; pf_owner := "li3ds";
            pf_platform := 2; pf_transfo_trees := [2] |};
         the_config 7 [2; 1; 2] ];
     transfo_tree := transfo_tree (scenario_A sc1 sc2);
     transfo := transfo (scenario_A sc1 sc2);
     referential := referential (scenario_A sc1 sc2) |}.

Definition drone_payload : platform_payload :=
  {| pl_name := "drone"; pl_description := "aerial";
     pl_start_time := Some "2017-01-01T00:00:00"; pl_end_time := None |}.

(** A configuration that lists no tree. *)
Definition bare_config_store : Storage :=
  {| platform := [];
     platform_config := [the_config 3 []];
     transfo_tree :=
       [ {| tt_id := 1; tt_transfos := [10]; tt_sensor_connections := false |} ];
     transfo := [the_transfo 10 100 101];
     referential := [ {| r_id := 100; r_name := "base"; r_root := true |} ] |}.

(** Two runs of the assembler in a row, the second on the store the first
    left, each with the row order it happens to get. *)
Definition assemble_twice (ord1 ord2 : RowOrder) (id : Z)
    : DB ((list node_row * list edge_row) * (list node_row * list edge_row)) :=
  first ← assemble ord1 id;
  second ← assemble ord2 id;
  mret (first, second).

(** ** Vocabulary of the statements *)

(** [tt] is a tree of the configuration [id]: some row of
    [li3ds.platform_config] with that id lists the id of [tt]. *)
Definition tree_of_config (st : Storage) (id : Z) (tt : transfo_tree_row) : Prop :=
  tt ∈ transfo_tree st ∧
  ∃ pf, pf ∈ platform_config st ∧ pf_id pf = id ∧ tt_id tt ∈ pf_transfo_trees pf.

(** The result row of a transformation read with the flag [sc]. *)
Definition edge_of (t : transfo_row) (sc : bool) : edge_row :=
  {| e_id := t_id t; e_source := t_source t; e_target := t_target t;
     e_transfo_type := t_transfo_type t; e_sc := sc |}.

Definition node_of (r : referential_row) : node_row :=
  {| n_id := r_id r; n_name := r_name r; n_root := r_root r |}.

(** The ids met as a source or a target of a list of edges. *)
Definition endpoint (edges : list edge_row) (x : Z) : Prop :=
  ∃ e, e ∈ edges ∧ (x = e_source e ∨ x = e_target e).

(** The statement the loops of lines 171-189 append for a row. *)
Definition node_stmt_of (node : node_row) : stmt :=
  node_stmt (str (n_id node)) (n_name node +:+ newline +:+ "(" +:+ str (n_id node) +:+ ")")
    (if n_root node then [("color", "red")] else []).

Definition edge_stmt_of (edge : edge_row) : stmt :=
  edge_stmt (str (e_source edge)) (str (e_target edge)) (Some (str (e_id edge)))
    (if e_sc edge then [("color", "blue")] else []).

(** The description of a graph without a node or an edge. *)
Definition empty_graph : Digraph :=
  {| comment := "Transformations"; body := [];
     graph_attr := [("overlap", "scalexy")]; engine := "dot" |}.

Definition png_response (data : list byte) : Response :=
  {| resp_data := data; resp_status := 200;
     resp_content_type := "image/png"; resp_mimetype := "image/png" |}.

(** The labels of the edges drawn in a given colour. *)
Definition edge_labels_coloured (colour : string) (dot : Digraph) : list string :=
  s ← body dot;
  match s with
  | edge_stmt _ _ (Some l) attrs =>
      if decide (("color", colour) ∈ attrs) then [l] else []
  | _ => []
  end.

(** The names of the nodes the description declares. *)
Definition declared_nodes (dot : Digraph) : list string :=
  s ← body dot;
  match s with
  | node_stmt name _ _ => [name]
  | _ => []
  end.

(** * Properties *)

(** ** The two statements *)

Lemma elem_of_preview_tmp id st tid sc :
  (tid, sc) ∈ preview_tmp id st ↔
  ∃ tt, tree_of_config st id tt ∧ tid ∈ tt_transfos tt ∧ sc = tt_sensor_connections tt.
Proof.
  unfold preview_tmp, tree_of_config. rewrite list_elem_of_bind. split.
  - intros (pf & Hin & Hpf). apply list_elem_of_bind in Hin as (tt & Hin & Htt).
    case_decide as Hc; [|by apply elem_of_nil in Hin].
    apply list_elem_of_fmap in Hin as (tid' & [= -> ->] & Htid).
    destruct Hc. exists tt. eauto 10.
  - intros (tt & (Htt & pf & Hpf & Hid & Hany) & Htid & ->).
    exists pf. split; [|done]. apply list_elem_of_bind. exists tt. split; [|done].
    rewrite decide_True by done. apply list_elem_of_fmap. eauto.
Qed.

Lemma elem_of_select_preview_edges id st e :
  e ∈ select_preview_edges id st ↔
  ∃ t tt, t ∈ transfo st ∧ tree_of_config st id tt ∧ t_id t ∈ tt_transfos tt ∧
          e = edge_of t (tt_sensor_connections tt).
Proof.
  unfold select_preview_edges. rewrite elem_of_remove_dups, list_elem_of_bind. split.
  - intros ([tid sc] & Hin & Hp). apply list_elem_of_bind in Hin as (t & Hin & Ht).
    case_decide as Hc; [|by apply elem_of_nil in Hin].
    apply list_elem_of_singleton in Hin. simpl in *. subst tid.
    apply elem_of_preview_tmp in Hp as (tt & Htt & Htid & ->).
    exists t, tt. done.
  - intros (t & tt & Ht & Htt & Htid & ->).
    exists (t_id t, tt_sensor_connections tt). split.
    + apply list_elem_of_bind. exists t. split; [|done].
      rewrite decide_True by done. by apply list_elem_of_singleton.
    + apply elem_of_preview_tmp. eauto.
Qed.

Lemma NoDup_select_preview_edges id st : NoDup (select_preview_edges id st).
Proof. apply NoDup_remove_dups. Qed.

Lemma elem_of_select_preview_nodes ids st n :
  n ∈ select_preview_nodes ids st ↔
  ∃ r, r ∈ referential st ∧ r_id r ∈ ids ∧ n = node_of r.
Proof.
  unfold select_preview_nodes. rewrite elem_of_remove_dups, list_elem_of_bind. split.
  - intros (r & Hin & Hr). case_decide; [|by apply elem_of_nil in Hin].
    apply list_elem_of_singleton in Hin. eauto.
  - intros (r & Hr & Hid & ->). exists r. split; [|done].
    rewrite decide_True by done. by apply list_elem_of_singleton.
Qed.

Lemma elem_of_collect_urefs edges x :
  x ∈ collect_urefs edges ↔ endpoint edges x.
Proof.
  unfold collect_urefs, endpoint.
  cut (∀ acc : gset Z,
    x ∈ foldl (λ urefs edge, urefs ∪ {[ e_source edge ]} ∪ {[ e_target edge ]}) acc edges
    ↔ x ∈ acc ∨ ∃ e, e ∈ edges ∧ (x = e_source e ∨ x = e_target e)).
  { intros Hacc. rewrite Hacc. split; [|by right].
    intros [Hx|Hx]; [by apply elem_of_empty in Hx|done]. }
  induction edges as [|e edges IH]; intros acc; simpl.
  - split; [auto|]. intros [?|(e & He & _)]; [done|]. by apply elem_of_nil in He.
  - rewrite IH. rewrite !elem_of_union, !elem_of_singleton. split.
    + intros [[[?|?]|?]|(e' & He' & Hx)]; eauto.
      * right. exists e. split; [left|]; auto.
      * right. exists e. split; [left|]; auto.
      * right. exists e'. split; [by right|]; auto.
    + intros [?|(e' & He' & Hx)]; [by auto|].
      apply elem_of_cons in He' as [->|He']; [destruct Hx; auto|].
      right. eauto.
Qed.

(** ** Running the assembler *)

Lemma assemble_run ord id st :
  assemble ord id st =
  (Ok (reorder ord (select_preview_nodes
         (reorder ord (elements (collect_urefs (reorder ord (select_preview_edges id st))))) st),
       reorder ord (select_preview_edges id st)), st).
Proof. reflexivity. Qed.

Lemma elem_of_reorder ord {A} (l : list A) x : x ∈ reorder ord l ↔ x ∈ l.
Proof. by rewrite (reorder_perm ord). Qed.

Lemma elem_of_assembled_edges ord id st e :
  e ∈ reorder ord (select_preview_edges id st) ↔
  ∃ t tt, t ∈ transfo st ∧ tree_of_config st id tt ∧ t_id t ∈ tt_transfos tt ∧
          e = edge_of t (tt_sensor_connections tt).
Proof. rewrite elem_of_reorder. apply elem_of_select_preview_edges. Qed.

Lemma NoDup_assembled_edges ord id st :
  NoDup (reorder ord (select_preview_edges id st)).
Proof. rewrite (reorder_perm ord). apply NoDup_select_preview_edges. Qed.

Lemma elem_of_assembled_nodes ord st edges n :
  n ∈ reorder ord (select_preview_nodes (reorder ord (elements (collect_urefs edges))) st) ↔
  ∃ r, r ∈ referential st ∧ endpoint edges (r_id r) ∧ n = node_of r.
Proof.
  rewrite elem_of_reorder, elem_of_select_preview_nodes.
  setoid_rewrite elem_of_reorder. setoid_rewrite elem_of_elements.
  by setoid_rewrite elem_of_collect_urefs.
Qed.

(** ** Lists without a repeated element *)

Lemma NoDup_all_equal_length {A} (l : list A) :
  NoDup l → (∀ x y, x ∈ l → y ∈ l → x = y) → (length l ≤ 1)%nat.
Proof.
  intros Hnd Heq. destruct l as [|x [|y l]]; simpl; [lia..|].
  apply NoDup_cons in Hnd as [Hx _]. exfalso. apply Hx.
  rewrite (Heq x y); [left | left | right; left].
Qed.

Lemma NoDup_fmap_key {A B} (f : A → B) (l : list A) x y :
  NoDup (f <$> l) → x ∈ l → y ∈ l → f x = f y → x = y.
Proof.
  induction l as [|a l IH]; simpl; intros Hnd Hx Hy Hf.
  - by apply elem_of_nil in Hx.
  - apply NoDup_cons in Hnd as [Ha Hnd].
    apply elem_of_cons in Hx as [->|Hx]; apply elem_of_cons in Hy as [->|Hy]; auto.
    + exfalso. apply Ha. rewrite Hf. apply list_elem_of_fmap. eauto.
    + exfalso. apply Ha. rewrite <- Hf. apply list_elem_of_fmap. eauto.
Qed.

(** ** C1: the node set against the endpoints of the edge set *)

(** C1, as the code has it: for every configuration id the assembler
    returns, and the ids of its node set are exactly the source and target
    ids of its edge set that have a row in [li3ds.referential].  So no node
    is an orphan, and an endpoint is a node as soon as it is stored. *)
Theorem assembled_nodes_are_stored_endpoints ord id st :
  ∃ nodes edges,
    assemble ord id st = (Ok (nodes, edges), st) ∧
    ∀ x, x ∈ (n_id <$> nodes) ↔ endpoint edges x ∧ x ∈ (r_id <$> referential st).
Proof.
  rewrite assemble_run. eexists _, _. split; [reflexivity|].
  intros x. rewrite !list_elem_of_fmap. split.
  - intros (n & -> & Hn). apply elem_of_assembled_nodes in Hn as (r & Hr & He & ->).
    simpl. eauto.
  - intros (He & r & -> & Hr). exists (node_of r). split; [done|].
    apply elem_of_assembled_nodes. eauto.
Qed.

(** C1 as stated fails where a target has no referential row: in
    [dangling_store] the edge 10 ends in 101, and no node has that id. *)
Lemma endpoint_missing_from_nodes :
  ∃ nodes edges,
    assemble stored_order 1 dangling_store = (Ok (nodes, edges), dangling_store) ∧
    endpoint edges 101 ∧ 101 ∉ (n_id <$> nodes).
Proof.
  eexists _, _. split; [vm_compute; reflexivity|]. split.
  - eexists. split; [left|]. by right.
  - simpl. intros [Heq|Hin]%elem_of_cons; [done|]. by apply elem_of_nil in Hin.
Qed.

(** ** C2: one row per transformation and flag *)

(** C2, as the code has it: the rows of the edge set are pairwise
    distinct.  Where the ids of [li3ds.transfo] are a key and the trees of
    the configuration that hold the transformation [tid] agree on
    [sensor_connections], [tid] is the id of at most one row, and of
    exactly one when some tree of the configuration holds it and it is
    stored. *)
Theorem edge_once_when_flags_agree ord id st tid :
  NoDup (t_id <$> transfo st) →
  (∀ tt1 tt2, tree_of_config st id tt1 → tree_of_config st id tt2 →
     tid ∈ tt_transfos tt1 → tid ∈ tt_transfos tt2 →
     tt_sensor_connections tt1 = tt_sensor_connections tt2) →
  ∃ nodes edges,
    assemble ord id st = (Ok (nodes, edges), st) ∧
    NoDup edges ∧
    (length (filter (λ e, e_id e = tid) edges) ≤ 1)%nat ∧
    ((∃ tt, tree_of_config st id tt ∧ tid ∈ tt_transfos tt) →
     tid ∈ (t_id <$> transfo st) →
     length (filter (λ e, e_id e = tid) edges) = 1%nat).
Proof.
  intros Hkey Hflags. rewrite assemble_run. eexists _, _. split; [reflexivity|].
  pose proof (NoDup_assembled_edges ord id st) as Hnd.
  assert (length (filter (λ e, e_id e = tid)
            (reorder ord (select_preview_edges id st))) ≤ 1)%nat as Hle.
  { apply NoDup_all_equal_length; [by apply NoDup_filter|].
    intros x y [Hx Hxin]%list_elem_of_filter [Hy Hyin]%list_elem_of_filter.
    apply elem_of_assembled_edges in Hxin as (t1 & tt1 & Ht1 & Htt1 & Hin1 & ->).
    apply elem_of_assembled_edges in Hyin as (t2 & tt2 & Ht2 & Htt2 & Hin2 & ->).
    simpl in Hx, Hy.
    assert (t1 = t2) as <- by (eapply NoDup_fmap_key; eauto; congruence).
    rewrite Hx in Hin1, Hin2. by rewrite (Hflags tt1 tt2). }
  split; [done|]. split; [done|].
  intros (tt & Htt & Htid) (t & -> & Ht)%list_elem_of_fmap.
  assert (edge_of t (tt_sensor_connections tt) ∈
          filter (λ e, e_id e = t_id t) (reorder ord (select_preview_edges id st))) as Hin.
  { apply list_elem_of_filter. split; [done|]. apply elem_of_assembled_edges. eauto 10. }
  destruct (filter _ _) as [|? [|? ?]]; simpl in *; [by apply elem_of_nil in Hin|done|lia].
Qed.

Lemma edge_once_when_flags_agree_witness :
  ∃ nodes edges,
    assemble stored_order 7 (scenario_A true true) = (Ok (nodes, edges), scenario_A true true) ∧
    NoDup edges ∧
    (length (filter (λ e, e_id e = 11%Z) edges) ≤ 1)%nat ∧
    ((∃ tt, tree_of_config (scenario_A true true) 7 tt ∧ 11 ∈ tt_transfos tt) →
     11 ∈ (t_id <$> transfo (scenario_A true true)) →
     length (filter (λ e, e_id e = 11) edges) = 1%nat).
Proof.
  apply (edge_once_when_flags_agree stored_order 7 (scenario_A true true) 11).
  - simpl. compute_done.
  - intros tt1 tt2 [H1 _] [H2 _] _ _. simpl in H1, H2.
    repeat (apply elem_of_cons in H1 as [->|H1]); [| |by apply elem_of_nil in H1];
    repeat (apply elem_of_cons in H2 as [->|H2]); try done; by apply elem_of_nil in H2.
Defined.

(** C2 as stated fails where the trees disagree on the flag: in
    [shared_transfo_store] the trees 1 and 2 of configuration 1 both hold
    the transformation 10, and the edge set has two rows of id 10. *)
Lemma shared_transfo_listed_twice :
  ∃ nodes edges,
    assemble stored_order 1 shared_transfo_store = (Ok (nodes, edges), shared_transfo_store) ∧
    (∃ tt1 tt2, tt1 ≠ tt2 ∧
       tree_of_config shared_transfo_store 1 tt1 ∧ 10 ∈ tt_transfos tt1 ∧
       tree_of_config shared_transfo_store 1 tt2 ∧ 10 ∈ tt_transfos tt2) ∧
    length (filter (λ e, e_id e = 10) edges) = 2%nat.
Proof.
  eexists _, _. split; [vm_compute; reflexivity|]. split; [|reflexivity].
  exists {| tt_id := 1; tt_transfos := [10]; tt_sensor_connections := false |},
         {| tt_id := 2; tt_transfos := [10]; tt_sensor_connections := true |}.
  split; [done|].
  assert (the_config 1 [1; 2] ∈ platform_config shared_transfo_store) by (simpl; left).
  repeat split; simpl; try (by left); try (by right; left).
  - exists (the_config 1 [1; 2]). repeat split; simpl; by left.
  - exists (the_config 1 [1; 2]). repeat split; simpl; [by left|by right; left].
Qed.

(** ** C3: the graph description *)

Lemma body_draw_nodes nodes dot :
  body (foldl draw_node dot nodes) = body dot ++ (node_stmt_of <$> nodes).
Proof.
  revert dot. induction nodes as [|node nodes IH]; intros dot; simpl.
  - by rewrite app_nil_r.
  - rewrite IH. unfold draw_node, node_stmt_of, node_label.
    destruct (n_root node); simpl; by rewrite <- app_assoc.
Qed.

Lemma body_draw_edges edges dot :
  body (foldl draw_edge dot edges) = body dot ++ (edge_stmt_of <$> edges).
Proof.
  revert dot. induction edges as [|edge edges IH]; intros dot; simpl.
  - by rewrite app_nil_r.
  - rewrite IH. unfold draw_edge, edge_stmt_of.
    destruct (e_sc edge); simpl; by rewrite <- app_assoc.
Qed.

Lemma describe_graph_body nodes edges :
  body (describe_graph nodes edges) = (node_stmt_of <$> nodes) ++ (edge_stmt_of <$> edges).
Proof.
  unfold describe_graph. simpl. by rewrite body_draw_edges, body_draw_nodes.
Qed.

Example describe_shared_transfo :
  body (describe_graph
          [ {| n_id := 100; n_name := "base"; n_root := true |};
            {| n_id := 101; n_name := "lidar"; n_root := false |} ]
          [ edge_of (the_transfo 10 100 101) false; edge_of (the_transfo 10 100 101) true ]) =
    [ node_stmt "100" ("base" +:+ newline +:+ "(100)") [("color", "red")];
      node_stmt "101" ("lidar" +:+ newline +:+ "(101)") [];
      edge_stmt "100" "101" (Some "10") [];
      edge_stmt "100" "101" (Some "10") [("color", "blue")] ].
Proof. vm_compute. reflexivity. Qed.

(** C3: the description holds one statement per node row, then one per
    edge row, in the order of the rows.  A node is named by its id, is
    labelled with its name, a line break and its id in parentheses, and is
    red when its root flag is set and of the default colour (no colour
    attribute) otherwise.  An edge runs from its source to its target, is
    labelled with the id of the transformation, and is blue when its
    sensor-connection flag is set and of the default colour otherwise. *)
Theorem describe_graph_visual_policy nodes edges :
  body (describe_graph nodes edges) =
    ((λ node, node_stmt (str (n_id node))
                (n_name node +:+ newline +:+ "(" +:+ str (n_id node) +:+ ")")
                (if n_root node then [("color", "red")] else [])) <$> nodes) ++
    ((λ edge, edge_stmt (str (e_source edge)) (str (e_target edge))
                (Some (str (e_id edge)))
                (if e_sc edge then [("color", "blue")] else [])) <$> edges).
Proof. apply describe_graph_body. Qed.

(** ** C4, C9: nothing to draw *)

Lemma reorder_nil ord {A} : reorder ord (@nil A) = [].
Proof. apply Permutation_nil_r, reorder_perm. Qed.

Lemma assemble_nothing ord id st :
  (∀ tt tid, tree_of_config st id tt → tid ∈ tt_transfos tt → tid ∉ (t_id <$> transfo st)) →
  assemble ord id st = (Ok ([], []), st).
Proof.
  intros Hnone. rewrite assemble_run.
  assert (select_preview_edges id st = []) as ->.
  { apply elem_of_nil_inv. intros e (t & tt & Ht & Htt & Htid & _)%elem_of_select_preview_edges.
    apply (Hnone tt (t_id t)); [done..|]. apply list_elem_of_fmap. eauto. }
  rewrite reorder_nil. unfold collect_urefs. simpl. rewrite elements_empty, reorder_nil.
  assert (select_preview_nodes [] st = []) as ->.
  { apply elem_of_nil_inv. intros n (r & _ & Hr & _)%elem_of_select_preview_nodes.
    by apply elem_of_nil in Hr. }
  by rewrite reorder_nil.
Qed.

Lemma no_tree_of_unknown_config id st tt :
  (∀ pf, pf ∈ platform_config st → pf_id pf ≠ id) → ¬ tree_of_config st id tt.
Proof. intros Hno (_ & pf & Hpf & Hid & _). by apply (Hno pf). Qed.

(** C4: when no row of [li3ds.platform_config] has the id, the assembler
    returns (it does not abort) the empty node set and the empty edge set,
    and leaves the store as it was. *)
Theorem unknown_config_is_empty_graph ord id st :
  (∀ pf, pf ∈ platform_config st → pf_id pf ≠ id) →
  assemble ord id st = (Ok ([], []), st).
Proof.
  intros Hno. apply assemble_nothing. intros tt tid Htt _.
  by destruct (no_tree_of_unknown_config id st tt).
Qed.

Lemma unknown_config_is_empty_graph_witness :
  assemble reversed_order 99 dangling_store = (Ok ([], []), dangling_store).
Proof.
  apply (unknown_config_is_empty_graph reversed_order 99 dangling_store).
  intros pf Hpf. simpl in Hpf. apply list_elem_of_singleton in Hpf as ->. done.
Defined.

(** C9: when no tree of the configuration holds a stored transformation
    (the id has no configuration, the configuration lists no stored tree,
    or its trees hold nothing stored), the preview hands the description
    of the graph without node and edge to the backend, asking for png, and
    answers with the bytes it gets, status 200 and type image/png.  It
    leaves by no abort: the one other way out is the backend raising. *)
Theorem empty_preview_is_rendered ord pipe id st :
  (∀ tt tid, tree_of_config st id tt → tid ∈ tt_transfos tt → tid ∉ (t_id <$> transfo st)) →
  PlatformConfigPreview_get ord pipe id st =
    (match pipe empty_graph "png" with
     | Some data => Ok (png_response data)
     | None => BackendError
     end, st).
Proof.
  intros Hnone. unfold PlatformConfigPreview_get, mbind, DB_bind, db_bind.
  rewrite (assemble_nothing ord id st Hnone). unfold dot_pipe.
  change (describe_graph [] []) with empty_graph.
  by destruct (pipe empty_graph "png").
Qed.

Lemma empty_preview_is_rendered_witness :
  PlatformConfigPreview_get stored_order stub_backend 3 bare_config_store =
    (Ok (png_response [x89; x50]), bare_config_store).
Proof.
  apply (empty_preview_is_rendered stored_order stub_backend 3 bare_config_store).
  intros tt tid (_ & pf & Hpf & _ & Htree) _. simpl in Hpf.
  apply list_elem_of_singleton in Hpf as ->. simpl in Htree. by apply elem_of_nil in Htree.
Defined.

(** ** C7: two runs on one store *)

Lemma select_preview_nodes_ext ids1 ids2 st :
  (∀ x, x ∈ ids1 ↔ x ∈ ids2) →
  select_preview_nodes ids1 st = select_preview_nodes ids2 st.
Proof.
  intros Hids. unfold select_preview_nodes. f_equal.
  induction (referential st) as [|r rs IH]; [done|].
  rewrite !bind_cons, IH. f_equal.
  destruct (decide (r_id r ∈ ids1)) as [Hin|Hout].
  - rewrite decide_True; [done|]. by apply Hids.
  - rewrite decide_False; [done|]. by rewrite <- Hids.
Qed.

Lemma endpoint_Permutation edges1 edges2 x :
  edges1 ≡ₚ edges2 → endpoint edges1 x ↔ endpoint edges2 x.
Proof. intros Hp. unfold endpoint. by setoid_rewrite Hp. Qed.

Lemma assemble_twice_run ord1 ord2 id st :
  assemble_twice ord1 ord2 id st =
  (Ok ((reorder ord1 (select_preview_nodes
          (reorder ord1 (elements (collect_urefs (reorder ord1 (select_preview_edges id st))))) st),
        reorder ord1 (select_preview_edges id st)),
       (reorder ord2 (select_preview_nodes
          (reorder ord2 (elements (collect_urefs (reorder ord2 (select_preview_edges id st))))) st),
        reorder ord2 (select_preview_edges id st))), st).
Proof. reflexivity. Qed.

(** C7: the assembler run twice in a row for one configuration id returns
    both times, leaves the store as it was, and the two node sets, as the
    two edge sets, are rearrangements of one another whatever order each
    run got its rows in; so they are equal as sets. *)
Theorem assemble_twice_same_sets ord1 ord2 id st :
  ∃ nodes1 edges1 nodes2 edges2,
    assemble_twice ord1 ord2 id st = (Ok ((nodes1, edges1), (nodes2, edges2)), st) ∧
    nodes1 ≡ₚ nodes2 ∧ edges1 ≡ₚ edges2 ∧
    (∀ n, n ∈ nodes1 ↔ n ∈ nodes2) ∧ (∀ e, e ∈ edges1 ↔ e ∈ edges2).
Proof.
  rewrite assemble_twice_run. eexists _, _, _, _. split; [reflexivity|].
  assert (reorder ord1 (select_preview_edges id st) ≡ₚ
          reorder ord2 (select_preview_edges id st)) as Hedges.
  { by rewrite (reorder_perm ord1), (reorder_perm ord2). }
  assert (reorder ord1 (select_preview_nodes
            (reorder ord1 (elements (collect_urefs (reorder ord1 (select_preview_edges id st))))) st) ≡ₚ
          reorder ord2 (select_preview_nodes
            (reorder ord2 (elements (collect_urefs (reorder ord2 (select_preview_edges id st))))) st))
    as Hnodes.
  { rewrite (reorder_perm ord1 _ (select_preview_nodes _ _)).
    rewrite (reorder_perm ord2 _ (select_preview_nodes _ _)).
    rewrite (select_preview_nodes_ext _
      (reorder ord2 (elements (collect_urefs (reorder ord2 (select_preview_edges id st))))));
      [done|].
    intros x. rewrite !elem_of_reorder, !elem_of_elements, !elem_of_collect_urefs.
    by apply endpoint_Permutation. }
  split; [done|]. split; [done|]. split.
  - intros n. by rewrite Hnodes.
  - intros e. by rewrite Hedges.
Qed.

(** ** C8: where the flag of an edge comes from *)

(** C8: every row of the edge set is a stored transformation together
    with the [sensor_connections] of a tree of the configuration that
    holds it; the row of [li3ds.transfo] has no part in the flag.  So a
    transformation held by two trees of the configuration that disagree on
    the flag has, for each of the two flag values, exactly one row. *)
Theorem edge_flag_is_the_tree_flag ord id st :
  ∃ nodes edges,
    assemble ord id st = (Ok (nodes, edges), st) ∧
    (∀ e, e ∈ edges →
       ∃ t tt, t ∈ transfo st ∧ tree_of_config st id tt ∧ e_id e ∈ tt_transfos tt ∧
               e = edge_of t (tt_sensor_connections tt)) ∧
    (∀ t tt1 tt2,
       t ∈ transfo st → tree_of_config st id tt1 → tree_of_config st id tt2 →
       t_id t ∈ tt_transfos tt1 → t_id t ∈ tt_transfos tt2 →
       tt_sensor_connections tt1 ≠ tt_sensor_connections tt2 →
       ∀ sc, length (filter (λ e, e = edge_of t sc) edges) = 1%nat).
Proof.
  rewrite assemble_run. eexists _, _. split; [reflexivity|]. split.
  - intros e (t & tt & Ht & Htt & Htid & ->)%elem_of_assembled_edges. eauto 10.
  - intros t tt1 tt2 Ht Htt1 Htt2 Hin1 Hin2 Hne sc.
    assert (edge_of t sc ∈ reorder ord (select_preview_edges id st)) as Hin.
    { apply elem_of_assembled_edges.
      destruct (decide (sc = tt_sensor_connections tt1)) as [->|Hsc].
      { exists t, tt1. done. }
      exists t, tt2. split; [done|]. split; [done|]. split; [done|].
      revert Hsc Hne.
      destruct sc, (tt_sensor_connections tt1), (tt_sensor_connections tt2); congruence. }
    assert (length (filter (λ e, e = edge_of t sc)
              (reorder ord (select_preview_edges id st))) ≤ 1)%nat as Hle.
    { apply NoDup_all_equal_length; [apply NoDup_filter, NoDup_assembled_edges|].
      intros x y [-> _]%list_elem_of_filter [-> _]%list_elem_of_filter. done. }
    assert (edge_of t sc ∈ filter (λ e, e = edge_of t sc)
              (reorder ord (select_preview_edges id st))) as Hin'.
    { by apply list_elem_of_filter. }
    destruct (filter _ _) as [|? [|? ?]]; simpl in *; [by apply elem_of_nil in Hin'|done|lia].
Qed.

Lemma edge_flag_is_the_tree_flag_witness :
  ∃ nodes edges,
    assemble stored_order 1 shared_transfo_store = (Ok (nodes, edges), shared_transfo_store) ∧
    length (filter (λ e, e = edge_of (the_transfo 10 100 101) true) edges) = 1%nat ∧
    length (filter (λ e, e = edge_of (the_transfo 10 100 101) false) edges) = 1%nat.
Proof.
  destruct (edge_flag_is_the_tree_flag stored_order 1 shared_transfo_store)
    as (nodes & edges & Hrun & _ & Hrows).
  exists nodes, edges. split; [exact Hrun|].
  assert (the_config 1 [1; 2] ∈ platform_config shared_transfo_store) as Hpf by (simpl; left).
  pose (tt1 := {| tt_id := 1; tt_transfos := [10]; tt_sensor_connections := false |}).
  pose (tt2 := {| tt_id := 2; tt_transfos := [10]; tt_sensor_connections := true |}).
  assert (tree_of_config shared_transfo_store 1 tt1) as H1.
  { split; [simpl; left|]. exists (the_config 1 [1; 2]). repeat split; simpl; by left. }
  assert (tree_of_config shared_transfo_store 1 tt2) as H2.
  { split; [simpl; right; left|]. exists (the_config 1 [1; 2]).
    repeat split; simpl; [by left|by right; left]. }
  split; apply (Hrows (the_transfo 10 100 101) tt1 tt2);
    solve [ done | simpl; by left ].
Defined.

(** ** C6: endpoints without a referential row *)

Lemma declared_nodes_describe_graph nodes edges :
  declared_nodes (describe_graph nodes edges) = (λ node, str (n_id node)) <$> nodes.
Proof.
  unfold declared_nodes. rewrite describe_graph_body, bind_app.
  assert ((edge_stmt_of <$> edges) ≫=
            (λ s, match s with node_stmt name _ _ => [name] | _ => [] end) = []) as ->.
  { induction edges as [|e edges IH]; [done|]. by rewrite fmap_cons, bind_cons, IH. }
  rewrite app_nil_r.
  induction nodes as [|n nodes IH]; [done|]. by rewrite !fmap_cons, bind_cons, IH.
Qed.

Lemma preview_run ord pipe id st nodes edges :
  assemble ord id st = (Ok (nodes, edges), st) →
  PlatformConfigPreview_get ord pipe id st =
    (match pipe (describe_graph nodes edges) "png" with
     | Some data => Ok (png_response data)
     | None => BackendError
     end, st).
Proof.
  intros Hrun. unfold PlatformConfigPreview_get, mbind, DB_bind, db_bind.
  rewrite Hrun. unfold dot_pipe.
  by destruct (pipe (describe_graph nodes edges) "png").
Qed.

(** C6, as the code has it: the preview checks no endpoint.  For every
    configuration it answers with what the backend makes of the
    description, and aborts in no case; every row of the edge set is drawn
    from the id of its source to the id of its target, stored or not; and
    the nodes the description declares are the endpoints that have a row in
    [li3ds.referential], so an edge may run to a node nothing declares. *)
Theorem preview_checks_no_endpoint ord pipe id st :
  ∃ nodes edges,
    assemble ord id st = (Ok (nodes, edges), st) ∧
    PlatformConfigPreview_get ord pipe id st =
      (match pipe (describe_graph nodes edges) "png" with
       | Some data => Ok (png_response data)
       | None => BackendError
       end, st) ∧
    (∀ e, e ∈ edges → edge_stmt_of e ∈ body (describe_graph nodes edges)) ∧
    (∀ x, str x ∈ declared_nodes (describe_graph nodes edges) ↔
          endpoint edges x ∧ x ∈ (r_id <$> referential st)).
Proof.
  pose proof (assemble_run ord id st) as Hrun.
  eexists _, _. split; [exact Hrun|]. split; [by apply preview_run|]. split.
  - intros e He. rewrite describe_graph_body, elem_of_app. right.
    apply list_elem_of_fmap. eauto.
  - intros x. rewrite declared_nodes_describe_graph, !list_elem_of_fmap. split.
    + intros (n & Hstr & Hn). apply (inj pretty) in Hstr. subst x.
      apply elem_of_assembled_nodes in Hn as (r & Hr & He & ->). simpl. eauto.
    + intros (He & r & -> & Hr). exists (node_of r). split; [done|].
      apply elem_of_assembled_nodes. eauto.
Qed.

(** C6 as stated fails in [dangling_store]: the target 101 of the edge 10
    has no referential row, and the preview of configuration 1 succeeds,
    with the edge drawn from 100 to 101 and no node declared for 101. *)
Lemma dangling_edge_is_drawn :
  PlatformConfigPreview_get stored_order stub_backend 1 dangling_store =
    (Ok (png_response [x89; x50]), dangling_store) ∧
  ∃ nodes edges,
    assemble stored_order 1 dangling_store = (Ok (nodes, edges), dangling_store) ∧
    (101 ∉ (r_id <$> referential dangling_store)) ∧
    edge_stmt "100" "101" (Some "10") [] ∈ body (describe_graph nodes edges) ∧
    declared_nodes (describe_graph nodes edges) = ["100"].
Proof.
  split; [vm_compute; reflexivity|].
  eexists _, _. split; [vm_compute; reflexivity|]. split.
  - simpl. intros [Heq|Hin]%elem_of_cons; [done|]. by apply elem_of_nil in Hin.
  - split; [|vm_compute; reflexivity].
    vm_compute. right. left.
Qed.

(** ** C5: scenario A *)

Lemma elem_of_blue_labels nodes edges l :
  l ∈ edge_labels_coloured "blue" (describe_graph nodes edges) ↔
  ∃ e, e ∈ edges ∧ e_sc e = true ∧ l = str (e_id e).
Proof.
  unfold edge_labels_coloured. rewrite describe_graph_body, list_elem_of_bind. split.
  - intros (s & Hl & [Hs|Hs]%elem_of_app).
    + apply list_elem_of_fmap in Hs as (n & -> & _). by apply elem_of_nil in Hl.
    + apply list_elem_of_fmap in Hs as (e & -> & He). unfold edge_stmt_of in Hl.
      exists e. destruct (e_sc e).
      * rewrite decide_True in Hl by left. by apply list_elem_of_singleton in Hl.
      * rewrite decide_False in Hl by apply not_elem_of_nil. by apply elem_of_nil in Hl.
  - intros (e & He & Hsc & ->). exists (edge_stmt_of e). split.
    + unfold edge_stmt_of. rewrite Hsc, decide_True by left. by left.
    + apply elem_of_app. right. apply list_elem_of_fmap. eauto.
Qed.

Lemma scenario_A_edges sc1 sc2 e :
  e ∈ select_preview_edges 7 (scenario_A sc1 sc2) ↔
  e = edge_of (the_transfo 10 100 101) sc1 ∨
  e = edge_of (the_transfo 11 101 102) sc1 ∨
  e = edge_of (the_transfo 11 101 102) sc2 ∨
  e = edge_of (the_transfo 12 102 103) sc2.
Proof.
  destruct sc1, sc2;
    match goal with |- _ ∈ ?E ↔ _ =>
      let E' := eval vm_compute in E in change E with E'
    end;
    unfold edge_of, the_transfo; simpl;
    rewrite ?elem_of_cons, elem_of_nil; tauto.
Qed.

(** C5, as the code has it: in scenario A, whatever flags the two trees
    carry, configuration 7 assembles to the node ids 100, 101, 102 and 103
    and to edges of the ids 10, 11 and 12.  The edge 10 is blue exactly
    when tree 1 carries the flag, the edge 12 exactly when tree 2 does,
    and the edge 11 is drawn in blue exactly when one of its two trees
    carries it. *)
Theorem scenario_A_assembles ord sc1 sc2 :
  ∃ nodes edges,
    assemble ord 7 (scenario_A sc1 sc2) = (Ok (nodes, edges), scenario_A sc1 sc2) ∧
    (n_id <$> nodes) ≡ₚ [100; 101; 102; 103] ∧
    (∀ x, x ∈ (e_id <$> edges) ↔ x ∈ [10; 11; 12]) ∧
    (∀ l, l ∈ edge_labels_coloured "blue" (describe_graph nodes edges) ↔
          (l = str 10 ∧ sc1 = true) ∨
          (l = str 11 ∧ (sc1 = true ∨ sc2 = true)) ∨
          (l = str 12 ∧ sc2 = true)).
Proof.
  pose proof (assemble_run ord 7 (scenario_A sc1 sc2)) as Hrun.
  eexists _, _. split; [exact Hrun|]. split; [|split].
  - rewrite (reorder_perm ord _ (select_preview_nodes _ _)).
    rewrite (select_preview_nodes_ext _ [100; 101; 102; 103]); [done|].
    intros x. rewrite elem_of_reorder, elem_of_elements, elem_of_collect_urefs.
    unfold endpoint. setoid_rewrite elem_of_reorder.
    setoid_rewrite scenario_A_edges. rewrite !elem_of_cons, elem_of_nil.
    unfold edge_of, the_transfo. split.
    + intros (e & [->|[->|[->| ->]]] & [->| ->]); simpl; tauto.
    + intros [ -> | [ -> | [ -> | [ -> | Hx ] ] ] ]; [| | | |destruct Hx].
      * eexists. split; [left; reflexivity|]. by left.
      * eexists. split; [left; reflexivity|]. by right.
      * eexists. split; [right; left; reflexivity|]. by right.
      * eexists. split; [right; right; right; reflexivity|]. by right.
  - intros x. rewrite list_elem_of_fmap. setoid_rewrite elem_of_reorder.
    setoid_rewrite scenario_A_edges. rewrite !elem_of_cons, elem_of_nil.
    unfold edge_of, the_transfo. split.
    + intros (e & -> & [->|[->|[->| ->]]]); simpl; tauto.
    + intros [ -> | [ -> | [ -> | Hx ] ] ]; [| | |destruct Hx].
      * eexists. split; [|left; reflexivity]. done.
      * eexists. split; [|right; left; reflexivity]. done.
      * eexists. split; [|right; right; right; reflexivity]. done.
  - intros l. rewrite elem_of_blue_labels. setoid_rewrite elem_of_reorder.
    setoid_rewrite scenario_A_edges. unfold edge_of, the_transfo. split.
    + intros (e & [->|[->|[->| ->]]] & Hsc & ->); simpl in *; tauto.
    + intros [[-> Hsc]|[[-> [Hsc|Hsc]]|[-> Hsc]]].
      * eexists. split; [left; reflexivity|]. done.
      * eexists. split; [right; left; reflexivity|]. done.
      * eexists. split; [right; right; left; reflexivity|]. done.
      * eexists. split; [right; right; right; reflexivity|]. done.
Qed.

(** C5 as stated fails: the store has no flag on a transformation, and
    with the flag on the trees no choice of the two flags colours the edge
    11 and only the edge 11.  With both flags off nothing is blue; a flag
    on tree 1 colours the edge 10, a flag on tree 2 the edge 12. *)
Lemma scenario_A_never_only_edge_11 :
  Forall (λ flags : bool * bool,
    ∃ nodes edges l,
      assemble stored_order 7 (scenario_A flags.1 flags.2)
        = (Ok (nodes, edges), scenario_A flags.1 flags.2) ∧
      ¬ (l ∈ edge_labels_coloured "blue" (describe_graph nodes edges) ↔ l = "11"))
    [(false, false); (false, true); (true, false); (true, true)].
Proof.
  repeat apply Forall_cons_2; [| | | |apply Forall_nil_2].
  - eexists _, _, "11". split; [vm_compute; reflexivity|].
    vm_compute. intros [_ H]. specialize (H eq_refl). by apply elem_of_nil in H.
  - eexists _, _, "12". split; [vm_compute; reflexivity|].
    vm_compute. intros [H _]. discriminate H. right. left.
  - eexists _, _, "10". split; [vm_compute; reflexivity|].
    vm_compute. intros [H _]. discriminate H. left.
  - eexists _, _, "10". split; [vm_compute; reflexivity|].
    vm_compute. intros [H _]. discriminate H. left.
Qed.

(** ** C10: one platform *)

Lemma select_platform_nil id st :
  select_platform id st = [] ↔ id ∉ (p_id <$> platform st).
Proof.
  unfold select_platform. rewrite list_elem_of_fmap. split.
  - intros Hnil (p & -> & Hp). eapply filter_nil_not_elem_of; [exact Hnil| |exact Hp]. done.
  - intros Hno. apply elem_of_nil_inv. intros p [Hid Hp]%list_elem_of_filter.
    apply Hno. eauto.
Qed.

Lemma filter_keeps_all {A} (P : A → Prop) `{∀ x, Decision (P x)} (l : list A) :
  (∀ x, x ∈ l → P x) → filter P l = l.
Proof.
  induction l as [|a l IH]; intros Hall; [done|].
  rewrite filter_cons_True by (apply Hall; left).
  f_equal. apply IH. intros x Hx. apply Hall. by right.
Qed.

Lemma delete_platform_none id st :
  id ∉ (p_id <$> platform st) → delete_platform id st = (O, st).
Proof.
  intros Hno. unfold delete_platform.
  assert (filter (λ p, p_id p = id) (platform st) = []) as -> by by apply select_platform_nil.
  rewrite filter_keeps_all.
  - by destruct st.
  - intros p Hp Hid. apply Hno. apply list_elem_of_fmap. eauto.
Qed.

Example get_stored_platform :
  OnePlatform_get stored_order 2 two_platforms =
    (Ok [ {| p_id := 2; p_name := "drone"; p_description := "aerial";
             p_start_time := None; p_end_time := None |} ], two_platforms).
Proof. reflexivity. Qed.

Example get_unknown_platform :
  OnePlatform_get stored_order 5 two_platforms =
    (Abort 410 "Platform not found", two_platforms).
Proof. reflexivity. Qed.

Example delete_stored_platform :
  (OnePlatform_delete 1 two_platforms).1 = Ok ("", 204) ∧
  p_id <$> platform (OnePlatform_delete 1 two_platforms).2 = [2].
Proof. split; reflexivity. Qed.

Example delete_unknown_platform :
  OnePlatform_delete 5 two_platforms = (Abort 410 "Platform not found", two_platforms).
Proof. reflexivity. Qed.

(** C10: GET on a platform id aborts with 410 exactly when no stored
    platform has the id, and otherwise returns the stored rows that have
    it; DELETE aborts with 410 exactly when no stored platform has the id,
    and otherwise answers an empty body with 204, the rows of that id
    being gone from the store and the others kept.  An abort leaves the
    store as it was. *)
Theorem one_platform_get_delete ord id st :
  (OnePlatform_get ord id st =
     if decide (id ∈ (p_id <$> platform st))
     then (Ok (reorder ord (filter (λ p, p_id p = id) (platform st))), st)
     else (Abort 410 "Platform not found", st)) ∧
  (∀ p, p ∈ reorder ord (filter (λ p, p_id p = id) (platform st)) ↔
        p ∈ platform st ∧ p_id p = id) ∧
  (OnePlatform_delete id st =
     if decide (id ∈ (p_id <$> platform st))
     then (Ok ("", 204),
           {| platform := filter (λ p, p_id p ≠ id) (platform st);
              platform_config := platform_config st;
              transfo_tree := transfo_tree st;
              transfo := transfo st;
              referential := referential st |})
     else (Abort 410 "Platform not found", st)).
Proof.
  split; [|split].
  - unfold OnePlatform_get, Database_query_asjson, Database_query, mbind, DB_bind, db_bind.
    fold (select_platform id st).
    destruct (decide (id ∈ (p_id <$> platform st))) as [Hin|Hout].
    + destruct (reorder ord (select_platform id st)) as [|p res] eqn:Hres; [|done].
      exfalso. assert (select_platform id st = []) as Hnil.
      { apply Permutation_nil_r. rewrite <- Hres. symmetry. apply reorder_perm. }
      by apply select_platform_nil in Hnil.
    + apply select_platform_nil in Hout as ->. by rewrite reorder_nil.
  - intros p. rewrite elem_of_reorder, list_elem_of_filter. tauto.
  - unfold OnePlatform_delete, Database_rowcount, mbind, DB_bind, db_bind.
    destruct (decide (id ∈ (p_id <$> platform st))) as [Hin|Hout].
    + unfold delete_platform.
      destruct (filter (λ p, p_id p = id) (platform st)) as [|p res] eqn:Hres; [|done].
      exfalso. by apply (select_platform_nil id st) in Hres.
    + by rewrite delete_platform_none.
Qed.

(** * Further properties of the preview *)

Lemma scenario_A_tree_1 sc1 sc2 :
  tree_of_config (scenario_A sc1 sc2) 7
    {| tt_id := 1; tt_transfos := [10; 11]; tt_sensor_connections := sc1 |}.
Proof.
  split; [simpl; left|]. exists (the_config 7 [1; 2]).
  repeat split; simpl; by left.
Qed.

Lemma scenario_A_tree_2 sc1 sc2 :
  tree_of_config (scenario_A sc1 sc2) 7
    {| tt_id := 2; tt_transfos := [11; 12]; tt_sensor_connections := sc2 |}.
Proof.
  split; [simpl; right; left|]. exists (the_config 7 [1; 2]).
  repeat split; simpl; [by left|by right; left].
Qed.

(** X1: a stored transformation held by a tree of the configuration is
    never left out: the assembler returns it as an edge carrying that
    tree's flag, and the description holds its edge statement. *)
Theorem held_transfo_is_drawn ord id st t tt :
  t ∈ transfo st → tree_of_config st id tt → t_id t ∈ tt_transfos tt →
  ∃ nodes edges,
    assemble ord id st = (Ok (nodes, edges), st) ∧
    edge_of t (tt_sensor_connections tt) ∈ edges ∧
    edge_stmt (str (t_source t)) (str (t_target t)) (Some (str (t_id t)))
      (if tt_sensor_connections tt then [("color", "blue")] else [])
      ∈ body (describe_graph nodes edges).
Proof.
  intros Ht Htt Htid. rewrite assemble_run. eexists _, _. split; [reflexivity|].
  assert (edge_of t (tt_sensor_connections tt) ∈ reorder ord (select_preview_edges id st))
    as Hin by (apply elem_of_assembled_edges; eauto 10).
  split; [done|]. rewrite describe_graph_body, elem_of_app. right.
  apply list_elem_of_fmap. exists (edge_of t (tt_sensor_connections tt)). done.
Qed.

Lemma held_transfo_is_drawn_witness :
  ∃ nodes edges,
    assemble reversed_order 7 (scenario_A false true)
      = (Ok (nodes, edges), scenario_A false true) ∧
    edge_of (the_transfo 12 102 103) true ∈ edges ∧
    edge_stmt (str 102) (str 103) (Some (str 12)) [("color", "blue")]
      ∈ body (describe_graph nodes edges).
Proof.
  apply (held_transfo_is_drawn reversed_order 7 (scenario_A false true)
           (the_transfo 12 102 103)
           {| tt_id := 2; tt_transfos := [11; 12]; tt_sensor_connections := true |}).
  - simpl. right. right. left.
  - apply scenario_A_tree_2.
  - simpl. right. left.
Defined.

Lemma node_of_key st n1 n2 ids :
  NoDup (r_id <$> referential st) →
  n1 ∈ select_preview_nodes ids st → n2 ∈ select_preview_nodes ids st →
  n_id n1 = n_id n2 → n1 = n2.
Proof.
  intros Hkey (r1 & Hr1 & _ & ->)%elem_of_select_preview_nodes
              (r2 & Hr2 & _ & ->)%elem_of_select_preview_nodes Hid.
  simpl in Hid. by rewrite (NoDup_fmap_key r_id (referential st) r1 r2).
Qed.

(** X2: when the ids of [li3ds.referential] are a key, no two rows of the
    node set share an id, and no two node statements of the description
    share a name: every referential is drawn as one node. *)
Theorem referential_drawn_once ord id st :
  NoDup (r_id <$> referential st) →
  ∃ nodes edges,
    assemble ord id st = (Ok (nodes, edges), st) ∧
    NoDup (n_id <$> nodes) ∧
    NoDup (declared_nodes (describe_graph nodes edges)).
Proof.
  intros Hkey. rewrite assemble_run. eexists _, _. split; [reflexivity|].
  set (ids := reorder ord (elements (collect_urefs (reorder ord (select_preview_edges id st))))).
  assert (NoDup (n_id <$> reorder ord (select_preview_nodes ids st))) as Hnd.
  { rewrite (reorder_perm ord). apply NoDup_fmap_2_strong.
    - intros n1 n2. by apply node_of_key.
    - apply NoDup_remove_dups. }
  split; [done|]. rewrite declared_nodes_describe_graph.
  rewrite (list_fmap_compose n_id str). by apply (NoDup_fmap_2 str).
Qed.

Lemma referential_drawn_once_witness :
  ∃ nodes edges,
    assemble stored_order 7 (scenario_A true false)
      = (Ok (nodes, edges), scenario_A true false) ∧
    NoDup (n_id <$> nodes) ∧
    NoDup (declared_nodes (describe_graph nodes edges)).
Proof.
  apply (referential_drawn_once stored_order 7 (scenario_A true false)).
  simpl. compute_done.
Defined.

(** X3: a stored referential that is the source or the target of a
    transformation held by a tree of the configuration gets its node
    statement: named by its id, labelled with its name and id, red exactly
    when it is a root.  In particular a root that is only ever a source is
    drawn red. *)
Theorem stored_endpoint_is_drawn ord id st r t tt :
  r ∈ referential st → t ∈ transfo st →
  tree_of_config st id tt → t_id t ∈ tt_transfos tt →
  r_id r = t_source t ∨ r_id r = t_target t →
  ∃ nodes edges,
    assemble ord id st = (Ok (nodes, edges), st) ∧
    node_stmt (str (r_id r)) (r_name r +:+ newline +:+ "(" +:+ str (r_id r) +:+ ")")
      (if r_root r then [("color", "red")] else [])
      ∈ body (describe_graph nodes edges).
Proof.
  intros Hr Ht Htt Htid Hend. rewrite assemble_run. eexists _, _. split; [reflexivity|].
  rewrite describe_graph_body, elem_of_app. left.
  apply list_elem_of_fmap. exists (node_of r). split; [done|].
  apply elem_of_assembled_nodes. exists r. split; [done|]. split; [|done].
  exists (edge_of t (tt_sensor_connections tt)). split; [|done].
  apply elem_of_assembled_edges. eauto 10.
Qed.

Lemma stored_endpoint_is_drawn_witness :
  ∃ nodes edges,
    assemble stored_order 7 (scenario_A false false)
      = (Ok (nodes, edges), scenario_A false false) ∧
    node_stmt (str 100) ("base" +:+ newline +:+ "(" +:+ str 100 +:+ ")") [("color", "red")]
      ∈ body (describe_graph nodes edges).
Proof.
  apply (stored_endpoint_is_drawn stored_order 7 (scenario_A false false)
           {| r_id := 100; r_name := "base"; r_root := true |}
           (the_transfo 10 100 101)
           {| tt_id := 1; tt_transfos := [10; 11]; tt_sensor_connections := false |}).
  - simpl. left.
  - simpl. left.
  - apply scenario_A_tree_1.
  - simpl. left.
  - left. reflexivity.
Defined.

(** X4: an edge label is drawn in blue exactly when it is the id of a
    stored transformation held by a tree of the configuration whose
    [sensor_connections] is set. *)
Theorem blue_iff_held_by_flagged_tree ord id st :
  ∃ nodes edges,
    assemble ord id st = (Ok (nodes, edges), st) ∧
    ∀ l, l ∈ edge_labels_coloured "blue" (describe_graph nodes edges) ↔
         ∃ t tt, t ∈ transfo st ∧ tree_of_config st id tt ∧ t_id t ∈ tt_transfos tt ∧
                 tt_sensor_connections tt = true ∧ l = str (t_id t).
Proof.
  rewrite assemble_run. eexists _, _. split; [reflexivity|].
  intros l. rewrite elem_of_blue_labels. split.
  - intros (e & (t & tt & Ht & Htt & Htid & ->)%elem_of_assembled_edges & Hsc & ->).
    simpl in *. eauto 10.
  - intros (t & tt & Ht & Htt & Htid & Hsc & ->).
    exists (edge_of t (tt_sensor_connections tt)). split; [|done].
    apply elem_of_assembled_edges. eauto 10.
Qed.

Lemma assembled_rearranged ord1 ord2 id st :
  reorder ord1 (select_preview_nodes
    (reorder ord1 (elements (collect_urefs (reorder ord1 (select_preview_edges id st))))) st) ≡ₚ
  reorder ord2 (select_preview_nodes
    (reorder ord2 (elements (collect_urefs (reorder ord2 (select_preview_edges id st))))) st) ∧
  reorder ord1 (select_preview_edges id st) ≡ₚ reorder ord2 (select_preview_edges id st).
Proof.
  assert (reorder ord1 (select_preview_edges id st) ≡ₚ
          reorder ord2 (select_preview_edges id st)) as Hedges.
  { by rewrite (reorder_perm ord1), (reorder_perm ord2). }
  split; [|done].
  rewrite (reorder_perm ord1 _ (select_preview_nodes _ _)).
  rewrite (reorder_perm ord2 _ (select_preview_nodes _ _)).
  rewrite (select_preview_nodes_ext _
    (reorder ord2 (elements (collect_urefs (reorder ord2 (select_preview_edges id st))))));
    [done|].
  intros x. rewrite !elem_of_reorder, !elem_of_elements, !elem_of_collect_urefs.
  by apply endpoint_Permutation.
Qed.

(** X5: the order in which the store returns rows changes the order of
    the statements of the description and nothing else: under two row
    orders the two descriptions have the same comment, graph attributes
    and engine, and their statements are a rearrangement of one another. *)
Theorem description_up_to_row_order ord1 ord2 id st :
  ∃ nodes1 edges1 nodes2 edges2,
    assemble ord1 id st = (Ok (nodes1, edges1), st) ∧
    assemble ord2 id st = (Ok (nodes2, edges2), st) ∧
    body (describe_graph nodes1 edges1) ≡ₚ body (describe_graph nodes2 edges2) ∧
    comment (describe_graph nodes1 edges1) = comment (describe_graph nodes2 edges2) ∧
    graph_attr (describe_graph nodes1 edges1) = graph_attr (describe_graph nodes2 edges2) ∧
    engine (describe_graph nodes1 edges1) = engine (describe_graph nodes2 edges2).
Proof.
  rewrite !assemble_run. eexists _, _, _, _. split; [reflexivity|]. split; [reflexivity|].
  destruct (assembled_rearranged ord1 ord2 id st) as [Hnodes Hedges].
  split; [|split; [|split]].
  - rewrite !describe_graph_body. by rewrite Hnodes, Hedges.
  - unfold describe_graph. simpl.
    generalize (new_Digraph "Transformations").
    assert (∀ es d, comment (foldl draw_edge d es) = comment d) as He.
    { induction es as [|e es IH]; intros d; [done|]. simpl. rewrite IH.
      unfold draw_edge. by destruct (e_sc e). }
    assert (∀ ns d, comment (foldl draw_node d ns) = comment d) as Hn.
    { induction ns as [|n ns IH]; intros d; [done|]. simpl. rewrite IH.
      unfold draw_node. by destruct (n_root n). }
    intros d. by rewrite !He, !Hn.
  - reflexivity.
  - reflexivity.
Qed.

Lemma tree_rows_own (trees : list transfo_tree_row) pf id :
  pf_id pf = id →
  (trees ≫= λ tt, if decide (tt_id tt ∈ pf_transfo_trees pf ∧ pf_id pf = id)
                  then (λ tid, (tid, tt_sensor_connections tt)) <$> tt_transfos tt
                  else []) =
  (trees ≫= λ tt, if decide (tt_id tt ∈ pf_transfo_trees pf)
                  then (λ tid, (tid, tt_sensor_connections tt)) <$> tt_transfos tt
                  else []).
Proof.
  intros Hid. induction trees as [|tt tts IH]; [done|].
  rewrite !bind_cons, IH. f_equal.
  destruct (decide (tt_id tt ∈ pf_transfo_trees pf)).
  - by rewrite decide_True.
  - rewrite decide_False; [done|]. tauto.
Qed.

Lemma tree_rows_other (trees : list transfo_tree_row) pf id :
  pf_id pf ≠ id →
  (trees ≫= λ tt, if decide (tt_id tt ∈ pf_transfo_trees pf ∧ pf_id pf = id)
                  then (λ tid, (tid, tt_sensor_connections tt)) <$> tt_transfos tt
                  else []) = [].
Proof.
  intros Hid. induction trees as [|tt tts IH]; [done|].
  rewrite bind_cons, IH, decide_False; [done|]. tauto.
Qed.

(** The rows of [tmp] come from the configurations of the asked id only. *)
Lemma preview_tmp_filter id st :
  preview_tmp id st =
  filter (λ pf, pf_id pf = id) (platform_config st) ≫= λ pf,
    transfo_tree st ≫= λ tt,
      if decide (tt_id tt ∈ pf_transfo_trees pf)
      then (λ tid, (tid, tt_sensor_connections tt)) <$> tt_transfos tt
      else [].
Proof.
  unfold preview_tmp. induction (platform_config st) as [|pf pfs IH]; [done|].
  rewrite bind_cons, IH. destruct (decide (pf_id pf = id)) as [Hid|Hid].
  - rewrite filter_cons_True, bind_cons by done. f_equal. by apply tree_rows_own.
  - rewrite filter_cons_False by done. by rewrite tree_rows_other.
Qed.

Lemma tree_rows_ext (trees : list transfo_tree_row) (l1 l2 : list Z) :
  (∀ x, x ∈ l1 ↔ x ∈ l2) →
  (trees ≫= λ tt, if decide (tt_id tt ∈ l1)
                  then (λ tid, (tid, tt_sensor_connections tt)) <$> tt_transfos tt
                  else []) =
  (trees ≫= λ tt, if decide (tt_id tt ∈ l2)
                  then (λ tid, (tid, tt_sensor_connections tt)) <$> tt_transfos tt
                  else []).
Proof.
  intros Hl. induction trees as [|tt tts IH]; [done|].
  rewrite !bind_cons, IH. f_equal.
  destruct (decide (tt_id tt ∈ l1)) as [Hin|Hout].
  - rewrite decide_True; [done|]. by apply Hl.
  - rewrite decide_False; [done|]. by rewrite <- Hl.
Qed.

(** X6: the assembled graph of a configuration id depends on
    [li3ds.platform_config] only through the rows of that id, and on their
    [transfo_trees] only as sets: the rows of other configurations, the
    order of the tree ids and their repetition change nothing. *)
Theorem assemble_reads_own_trees_as_set ord id st st' :
  Forall2 (λ pf pf', ∀ x, x ∈ pf_transfo_trees pf ↔ x ∈ pf_transfo_trees pf')
    (filter (λ pf, pf_id pf = id) (platform_config st))
    (filter (λ pf, pf_id pf = id) (platform_config st')) →
  transfo_tree st = transfo_tree st' →
  transfo st = transfo st' →
  referential st = referential st' →
  (assemble ord id st).1 = (assemble ord id st').1.
Proof.
  intros Hcfg Htree Htransfo Href.
  assert (preview_tmp id st = preview_tmp id st') as Htmp.
  { rewrite !preview_tmp_filter, <- Htree.
    induction Hcfg as [|pf pf' pfs pfs' Hpf _ IH]; [done|].
    rewrite !bind_cons, IH. f_equal. by apply tree_rows_ext. }
  assert (select_preview_edges id st = select_preview_edges id st') as Hedges.
  { unfold select_preview_edges. by rewrite Htmp, Htransfo. }
  rewrite !assemble_run. simpl. rewrite <- Hedges.
  unfold select_preview_nodes. by rewrite Href.
Qed.

Lemma assemble_reads_own_trees_as_set_witness :
  (assemble reversed_order 7 (scenario_A true false)).1 =
  (assemble reversed_order 7 (scenario_A_crowded true false)).1.
Proof.
  apply (assemble_reads_own_trees_as_set reversed_order 7
           (scenario_A true false) (scenario_A_crowded true false));
    [|reflexivity..].
  simpl. rewrite filter_cons_True by done. rewrite filter_nil.
  rewrite filter_cons_False by done. rewrite filter_cons_True by done. rewrite filter_nil.
  constructor; [|constructor].
  intros x. simpl. rewrite !elem_of_cons, !elem_of_nil. tauto.
Defined.

(** X7: the assembler returns the empty graph exactly when no tree of the
    configuration holds a stored transformation. *)
Theorem empty_graph_iff_nothing_held ord id st :
  assemble ord id st = (Ok ([], []), st) ↔
  ∀ tt tid, tree_of_config st id tt → tid ∈ tt_transfos tt → tid ∉ (t_id <$> transfo st).
Proof.
  split; [|apply assemble_nothing].
  rewrite assemble_run. intros [= _ Hedges] tt tid Htt Htid (t & -> & Ht)%list_elem_of_fmap.
  assert (edge_of t (tt_sensor_connections tt) ∈ reorder ord (select_preview_edges id st))
    as Hin by (apply elem_of_assembled_edges; eauto 10).
  rewrite Hedges in Hin. by apply elem_of_nil in Hin.
Qed.

(** * Further properties of the platform handlers *)

Lemma OnePlatform_get_run ord id st :
  OnePlatform_get ord id st =
  (match reorder ord (select_platform id st) with
   | [] => Abort 410 "Platform not found"
   | p :: res => Ok (p :: res)
   end, st).
Proof.
  unfold OnePlatform_get, Database_query_asjson, Database_query, mbind, DB_bind, db_bind.
  by destruct (reorder ord (select_platform id st)).
Qed.

Lemma reorder_eq_nil ord {A} (l : list A) : reorder ord l = [] ↔ l = [].
Proof.
  split; [|intros ->; apply reorder_nil].
  intros Hnil. apply Permutation_nil_r. rewrite <- Hnil. symmetry. apply reorder_perm.
Qed.

Lemma OnePlatform_get_unknown ord id st :
  id ∉ (p_id <$> platform st) →
  OnePlatform_get ord id st = (Abort 410 "Platform not found", st).
Proof.
  intros Hno. rewrite OnePlatform_get_run.
  apply select_platform_nil in Hno as ->. by rewrite reorder_nil.
Qed.

Lemma OnePlatform_get_stored ord id st :
  id ∈ (p_id <$> platform st) →
  OnePlatform_get ord id st = (Ok (reorder ord (select_platform id st)), st).
Proof.
  intros Hin. rewrite OnePlatform_get_run.
  destruct (reorder ord (select_platform id st)) as [|p res] eqn:Hres; [|done].
  apply reorder_eq_nil in Hres. by apply select_platform_nil in Hres.
Qed.

Lemma OnePlatform_delete_stored id st :
  id ∈ (p_id <$> platform st) →
  OnePlatform_delete id st =
  (Ok ("", 204),
   {| platform := filter (λ p, p_id p ≠ id) (platform st);
      platform_config := platform_config st;
      transfo_tree := transfo_tree st;
      transfo := transfo st;
      referential := referential st |}).
Proof.
  intros Hin.
  unfold OnePlatform_delete, Database_rowcount, mbind, DB_bind, db_bind, delete_platform.
  destruct (filter (λ p, p_id p = id) (platform st)) as [|p res] eqn:Hres; [|done].
  by apply (select_platform_nil id st) in Hres.
Qed.

Lemma OnePlatform_delete_unknown id st :
  id ∉ (p_id <$> platform st) →
  OnePlatform_delete id st = (Abort 410 "Platform not found", st).
Proof.
  intros Hno.
  unfold OnePlatform_delete, Database_rowcount, mbind, DB_bind, db_bind.
  by rewrite delete_platform_none.
Qed.

Lemma select_platform_other id id' (l : list platform_row) :
  id ≠ id' →
  filter (λ p, p_id p = id') (filter (λ p, p_id p ≠ id) l) = filter (λ p, p_id p = id') l.
Proof.
  intros Hne. rewrite list_filter_filter. apply list_filter_iff.
  intros p. split; [tauto|]. intros Hp. split; [done|]. congruence.
Qed.

(** X8: a platform that was deleted is gone: after a DELETE that
    succeeded, GET on the same id aborts with 410, a second DELETE aborts
    with 410 too, and the table has lost at least one row. *)
Theorem deleted_platform_is_gone ord id st :
  id ∈ (p_id <$> platform st) →
  ∃ st',
    OnePlatform_delete id st = (Ok ("", 204), st') ∧
    OnePlatform_get ord id st' = (Abort 410 "Platform not found", st') ∧
    OnePlatform_delete id st' = (Abort 410 "Platform not found", st') ∧
    (length (platform st') < length (platform st))%nat.
Proof.
  intros Hin. eexists. split; [by apply OnePlatform_delete_stored|].
  assert (id ∉ (p_id <$> filter (λ p, p_id p ≠ id) (platform st))) as Hgone.
  { intros (p & -> & [Hp _]%list_elem_of_filter)%list_elem_of_fmap. done. }
  split; [by apply OnePlatform_get_unknown|].
  split; [by apply OnePlatform_delete_unknown|]. simpl.
  apply list_elem_of_fmap in Hin as (p & -> & Hp).
  apply (length_filter_lt _ _ p); [done|]. by intros Hne.
Qed.

Lemma deleted_platform_is_gone_witness :
  ∃ st',
    OnePlatform_delete 1 two_platforms = (Ok ("", 204), st') ∧
    OnePlatform_get stored_order 1 st' = (Abort 410 "Platform not found", st') ∧
    OnePlatform_delete 1 st' = (Abort 410 "Platform not found", st') ∧
    (length (platform st') < length (platform two_platforms))%nat.
Proof.
  apply (deleted_platform_is_gone stored_order 1 two_platforms).
  simpl. left.
Defined.

(** X9: a DELETE on one id, whether it succeeds or aborts, changes the
    answer of GET on no other id. *)
Theorem delete_keeps_other_platforms ord id id' st :
  id ≠ id' →
  (OnePlatform_get ord id' (OnePlatform_delete id st).2).1 = (OnePlatform_get ord id' st).1.
Proof.
  intros Hne. destruct (decide (id ∈ (p_id <$> platform st))) as [Hin|Hout].
  - rewrite (OnePlatform_delete_stored id st Hin), !OnePlatform_get_run. simpl.
    unfold select_platform. simpl. by rewrite select_platform_other.
  - by rewrite (OnePlatform_delete_unknown id st Hout).
Qed.

Lemma delete_keeps_other_platforms_witness :
  (OnePlatform_get stored_order 2 (OnePlatform_delete 1 two_platforms).2).1 =
  (OnePlatform_get stored_order 2 two_platforms).1.
Proof.
  apply (delete_keeps_other_platforms stored_order 1 2 two_platforms). done.
Defined.

(** X10: the collection and the single resource agree: GET on the
    collection returns, without aborting, a rearrangement of the stored
    rows, and GET on an id succeeds, with rows of that listing, exactly
    when the listing holds a platform of that id. *)
Theorem listed_iff_found ord ord' id st :
  ∃ listing,
    Platforms_get ord st = (Ok listing, st) ∧
    listing ≡ₚ platform st ∧
    ((∃ res, OnePlatform_get ord' id st = (Ok res, st) ∧ res ≠ [] ∧
             ∀ p, p ∈ res ↔ p ∈ listing ∧ p_id p = id)
     ↔ id ∈ (p_id <$> listing)).
Proof.
  exists (reorder ord (platform st)). split; [reflexivity|].
  split; [apply reorder_perm|]. rewrite (reorder_perm ord). split.
  - intros (res & Hres & Hne & _).
    destruct (decide (id ∈ (p_id <$> platform st))) as [Hin|Hout]; [done|].
    by rewrite (OnePlatform_get_unknown ord' id st Hout) in Hres.
  - intros Hin. exists (reorder ord' (select_platform id st)).
    split; [by apply OnePlatform_get_stored|]. split.
    + rewrite reorder_eq_nil. by intros Hnil%select_platform_nil.
    + intros p. rewrite !elem_of_reorder. unfold select_platform.
      rewrite list_elem_of_filter. tauto.
Qed.

(** X11: GET on the configurations of a platform never aborts, whether the
    platform is stored or not: it returns the configurations whose
    [platform] column is the id, and each of them is found again by GET on
    its own id. *)
Theorem listed_config_is_found ord ord' id st :
  ∃ res,
    PlatformConfigs_get ord id st = (Ok res, st) ∧
    (∀ pf, pf ∈ res ↔ pf ∈ platform_config st ∧ pf_platform pf = id) ∧
    Forall (λ pf, ∃ one, OnePlatformConfig_get ord' (pf_id pf) st = (Ok one, st) ∧ pf ∈ one) res.
Proof.
  exists (reorder ord (select_platform_configs id st)). split; [reflexivity|].
  assert (∀ pf, pf ∈ reorder ord (select_platform_configs id st) ↔
                pf ∈ platform_config st ∧ pf_platform pf = id) as Hres.
  { intros pf. rewrite elem_of_reorder. unfold select_platform_configs.
    rewrite list_elem_of_filter. tauto. }
  split; [done|]. apply Forall_forall. intros pf [Hpf _]%Hres.
  exists (reorder ord' (select_platform_config (pf_id pf) st)). split; [reflexivity|].
  rewrite elem_of_reorder. unfold select_platform_config. by apply list_elem_of_filter.
Qed.

(** X12: GET on a configuration id answers an unknown id with the empty
    list, not with an abort; and where it does, the preview of that id is
    the rendering of the graph without node and edge. *)
Theorem unknown_config_lists_and_previews_empty ord ord' pipe id st :
  id ∉ (pf_id <$> platform_config st) →
  OnePlatformConfig_get ord id st = (Ok [], st) ∧
  PlatformConfigPreview_get ord' pipe id st =
    (match pipe empty_graph "png" with
     | Some data => Ok (png_response data)
     | None => BackendError
     end, st).
Proof.
  intros Hno.
  assert (∀ pf, pf ∈ platform_config st → pf_id pf ≠ id) as Hno'.
  { intros pf Hpf Hid. apply Hno. apply list_elem_of_fmap. eauto. }
  split.
  - unfold OnePlatformConfig_get, Database_query_asjson, Database_query.
    assert (select_platform_config id st = []) as ->; [|by rewrite reorder_nil].
    apply elem_of_nil_inv. intros pf [Hid Hpf]%list_elem_of_filter. by apply (Hno' pf).
  - rewrite (preview_run ord' pipe id st [] []); [done|].
    apply assemble_nothing. intros tt tid Htt _.
    by destruct (no_tree_of_unknown_config id st tt).
Qed.

Lemma unknown_config_lists_and_previews_empty_witness :
  OnePlatformConfig_get stored_order 99 dangling_store = (Ok [], dangling_store) ∧
  PlatformConfigPreview_get reversed_order stub_backend 99 dangling_store =
    (Ok (png_response [x89; x50]), dangling_store).
Proof.
  apply (unknown_config_lists_and_previews_empty
           stored_order reversed_order stub_backend 99 dangling_store).
  simpl. intros [Heq|Hin]%elem_of_cons; [done|]. by apply elem_of_nil in Hin.
Defined.

Lemma reorder_singleton ord {A} (x : A) : reorder ord [x] = [x].
Proof. apply Permutation_singleton_r, reorder_perm. Qed.

Lemma Platforms_post_run ord new_id payload st :
  Platforms_post ord new_id payload st =
  (Ok ((insert_platform new_id payload st).1, 201), (insert_platform new_id payload st).2).
Proof.
  unfold Platforms_post, Database_query_asdict, mbind, DB_bind, db_bind, mret, DB_ret, db_ret.
  simpl. by rewrite reorder_singleton.
Qed.

Lemma filter_fresh_id new_id (l : list platform_row) :
  new_id ∉ (p_id <$> l) → filter (λ p, p_id p = new_id) l = [].
Proof.
  intros Hfresh. apply elem_of_nil_inv. intros p [Hid Hp]%list_elem_of_filter.
  apply Hfresh. apply list_elem_of_fmap. eauto.
Qed.

(** X13: a platform that was created is found: when the id the store gives
    the new row is not that of a stored platform, POST answers 201 with
    the one new row, which carries that id and the four fields of the
    payload; GET on that id then returns exactly that row, and GET on any
    other id answers as before. *)
Theorem created_platform_is_found ord ord' new_id payload st :
  new_id ∉ (p_id <$> platform st) →
  ∃ row st',
    Platforms_post ord new_id payload st = (Ok ([row], 201), st') ∧
    row = {| p_id := new_id; p_name := pl_name payload;
             p_description := pl_description payload;
             p_start_time := pl_start_time payload;
             p_end_time := pl_end_time payload |} ∧
    OnePlatform_get ord' new_id st' = (Ok [row], st') ∧
    ∀ id, id ≠ new_id → (OnePlatform_get ord' id st').1 = (OnePlatform_get ord' id st).1.
Proof.
  intros Hfresh. eexists _, _. split; [apply Platforms_post_run|]. split; [reflexivity|].
  split.
  - rewrite OnePlatform_get_run. unfold select_platform. simpl.
    rewrite filter_app, filter_fresh_id by done.
    rewrite filter_cons_True, filter_nil by done. simpl.
    by rewrite reorder_singleton.
  - intros id Hne. rewrite !OnePlatform_get_run. unfold select_platform. simpl.
    rewrite filter_app, filter_cons_False, filter_nil, app_nil_r; [done|].
    simpl. congruence.
Qed.

Lemma created_platform_is_found_witness :
  ∃ row st',
    Platforms_post stored_order 3 drone_payload two_platforms = (Ok ([row], 201), st') ∧
    row = {| p_id := 3; p_name := "drone"; p_description := "aerial";
             p_start_time := Some "2017-01-01T00:00:00"; p_end_time := None |} ∧
    OnePlatform_get reversed_order 3 st' = (Ok [row], st') ∧
    ∀ id, id ≠ 3 →
      (OnePlatform_get reversed_order id st').1 = (OnePlatform_get reversed_order id two_platforms).1.
Proof.
  apply (created_platform_is_found stored_order reversed_order 3 drone_payload two_platforms).
  simpl. compute_done.
Defined.

(** X14: creating a platform and deleting it again gives the store back:
    when the id given to the new row was free, DELETE on it after the POST
    answers 204 and leaves the store the POST started from. *)
Theorem post_then_delete_restores ord new_id payload st :
  new_id ∉ (p_id <$> platform st) →
  ∃ created st',
    Platforms_post ord new_id payload st = (Ok (created, 201), st') ∧
    OnePlatform_delete new_id st' = (Ok ("", 204), st).
Proof.
  intros Hfresh. eexists _, _. split; [apply Platforms_post_run|].
  rewrite OnePlatform_delete_stored.
  - simpl. rewrite filter_app, filter_cons_False, filter_nil, app_nil_r by (simpl; tauto).
    rewrite filter_keeps_all.
    + by destruct st.
    + intros p Hp Hid. apply Hfresh. apply list_elem_of_fmap. eauto.
  - simpl. rewrite fmap_app, elem_of_app. right. simpl. left.
Qed.

Lemma post_then_delete_restores_witness :
  ∃ created st',
    Platforms_post stored_order 3 drone_payload two_platforms = (Ok (created, 201), st') ∧
    OnePlatform_delete 3 st' = (Ok ("", 204), two_platforms).
Proof.
  apply (post_then_delete_restores stored_order 3 drone_payload two_platforms).
  simpl. compute_done.
Defined.

(** X15: when the source and the target of every stored transformation
    have a row in [li3ds.referential], every edge statement of the
    description runs between two nodes the description declares. *)
Theorem edges_join_declared_nodes ord id st :
  (∀ t, t ∈ transfo st →
        t_source t ∈ (r_id <$> referential st) ∧ t_target t ∈ (r_id <$> referential st)) →
  ∃ nodes edges,
    assemble ord id st = (Ok (nodes, edges), st) ∧
    ∀ tail_name head_name label attrs,
      edge_stmt tail_name head_name label attrs ∈ body (describe_graph nodes edges) →
      tail_name ∈ declared_nodes (describe_graph nodes edges) ∧
      head_name ∈ declared_nodes (describe_graph nodes edges).
Proof.
  intros Hstored. rewrite assemble_run. eexists _, _. split; [reflexivity|].
  intros tl hd lbl attrs. rewrite declared_nodes_describe_graph, describe_graph_body.
  intros [Hs|Hs]%elem_of_app.
  { apply list_elem_of_fmap in Hs as (n & Hn & _). discriminate Hn. }
  apply list_elem_of_fmap in Hs as (e & [= -> -> _ _] & He).
  pose proof He as (t & tt & Ht & Htt & Htid & Hedge)%elem_of_assembled_edges.
  destruct (Hstored t Ht) as [(rs & Hrs & Hrsin)%list_elem_of_fmap
                               (rt & Hrt & Hrtin)%list_elem_of_fmap].
  split.
  - apply list_elem_of_fmap. exists (node_of rs). split.
    + simpl. rewrite <- Hrs, Hedge. done.
    + apply elem_of_assembled_nodes. exists rs. split; [done|]. split; [|done].
      exists e. split; [done|]. left. rewrite <- Hrs, Hedge. done.
  - apply list_elem_of_fmap. exists (node_of rt). split.
    + simpl. rewrite <- Hrt, Hedge. done.
    + apply elem_of_assembled_nodes. exists rt. split; [done|]. split; [|done].
      exists e. split; [done|]. right. rewrite <- Hrt, Hedge. done.
Qed.

Lemma edges_join_declared_nodes_witness :
  ∃ nodes edges,
    assemble stored_order 7 (scenario_A false true)
      = (Ok (nodes, edges), scenario_A false true) ∧
    ∀ tail_name head_name label attrs,
      edge_stmt tail_name head_name label attrs ∈ body (describe_graph nodes edges) →
      tail_name ∈ declared_nodes (describe_graph nodes edges) ∧
      head_name ∈ declared_nodes (describe_graph nodes edges).
Proof.
  apply (edges_join_declared_nodes stored_order 7 (scenario_A false true)).
  intros t Ht. simpl in Ht.
  repeat (apply elem_of_cons in Ht as [->|Ht]); [| | |by apply elem_of_nil in Ht];
    simpl; split; compute_done.
Defined.
